(** * kis3: the view database (database.go)

    A shallow embedding of [database.go]: the event recorder [trackView],
    the filter and statement builders of [ViewsRequest], and the query
    runner [request], followed by the properties of the specification that
    were checked against them.

    Go strings are byte strings and are modelled by [string] (a list of
    8-bit [ascii]); [len(s) > 0] is [0 <? length s].  A Go slice that may be
    [nil] is an [option (list _)].  The [*[]sql.NamedArg] that the filter
    builders append to is threaded through them as an explicit state. *)

From Stdlib Require Import String Ascii List ZArith Bool Arith Lia DecimalString.
Import ListNotations.
Open Scope string_scope.

(** ** Strings as the code uses them *)

(** [len(s) > 0] *)
Definition nonempty (s : string) : bool := Nat.ltb 0 (String.length s).

(** [strings.Join] *)
Definition strings_Join (elems : list string) (sep : string) : string :=
  String.concat sep elems.

(** [strings.Contains]: a substring test, used to state properties of the
    statement text. *)
Fixpoint strings_Contains (s substr : string) : bool :=
  String.prefix substr s ||
  match s with
  | EmptyString => false
  | String _ s' => strings_Contains s' substr
  end.

(** Go's [append(s, x)] on a slice. *)
Definition append {A : Type} (s : list A) (x : A) : list A := (s ++ [x])%list.

(** ** Requests *)

(** [sql.NamedArg], as built by [sql.Named(name, value)]; every value bound
    by this file is a string. *)
Record NamedArg : Type := Named { Name : string; Value : string }.

(** [type View int] and its constants, [iota + 1] onwards. *)
Definition View : Type := Z.

Definition PAGES : View := 1%Z.
Definition REFERRERS : View := 2%Z.
Definition USERAGENTS : View := 3%Z.
Definition HOURS : View := 4%Z.
Definition DAYS : View := 5%Z.
Definition WEEKS : View := 6%Z.
Definition MONTHS : View := 7%Z.

Record ViewsRequest : Type := mkViewsRequest {
  view : View;
  from : string;
  to : string;
  url : string;
  ref : string;
  ua : string
}.

(** [RequestResultRow] *)
Record RequestResultRow : Type := mkRow { First : string; Second : Z }.

(** ** Request filters *)

Definition buildDateTimeFilter (request : ViewsRequest) (namedArg : list NamedArg)
  : string * list NamedArg :=
  if nonempty (from request) && nonempty (to request) then
    let namedArg := append namedArg (Named "from" (from request)) in
    let namedArg := append namedArg (Named "to" (to request)) in
    ("datetime(time, 'localtime') between :from and :to", namedArg)
  else if nonempty (from request) then
    let namedArg := append namedArg (Named "from" (from request)) in
    ("datetime(time, 'localtime') >= :from", namedArg)
  else if nonempty (to request) then
    let namedArg := append namedArg (Named "to" (to request)) in
    ("datetime(time, 'localtime') <= :to", namedArg)
  else ("", namedArg).

Definition buildUrlFilter (request : ViewsRequest) (namedArg : list NamedArg)
  : string * list NamedArg :=
  if nonempty (url request) then
    ("url like :url", append namedArg (Named "url" ("%" ++ url request ++ "%")))
  else ("", namedArg).

Definition buildRefFilter (request : ViewsRequest) (namedArg : list NamedArg)
  : string * list NamedArg :=
  if nonempty (ref request) then
    ("ref like :ref", append namedArg (Named "ref" ("%" ++ ref request ++ "%")))
  else ("", namedArg).

Definition buildUseragentFilter (request : ViewsRequest) (namedArg : list NamedArg)
  : string * list NamedArg :=
  if nonempty (ua request) then
    ("useragent like :ua", append namedArg (Named "ua" ("%" ++ ua request ++ "%")))
  else ("", namedArg).

(** The [for _, filter := range ...] loop of [buildFilter]: the non-empty
    clauses are appended to [allFilters] in the order they are met. *)
Fixpoint collectFilters (allFilters : list string) (candidates : list string)
  : list string :=
  match candidates with
  | [] => allFilters
  | filter :: rest =>
      if nonempty filter then collectFilters (append allFilters filter) rest
      else collectFilters allFilters rest
  end.

Definition buildFilter (request : ViewsRequest) : string * list NamedArg :=
  let parameters := [] in
  let '(f1, parameters) := buildDateTimeFilter request parameters in
  let '(f2, parameters) := buildUrlFilter request parameters in
  let '(f3, parameters) := buildRefFilter request parameters in
  let '(f4, parameters) := buildUseragentFilter request parameters in
  let allFilters := collectFilters [] [f1; f2; f3; f4] in
  (strings_Join allFilters " and ", parameters).

(** ** Statements *)

(** The inner [switch] of [buildStatement]: the [strftime] format of a
    time-bucketed view, [""] when no case applies. *)
Definition timeFormat (v : View) : string :=
  if Z.eqb v HOURS then "%Y-%m-%d %H"
  else if Z.eqb v DAYS then "%Y-%m-%d"
  else if Z.eqb v WEEKS then "%Y-%W"
  else if Z.eqb v MONTHS then "%Y-%m"
  else "".

(** The first lines of [buildStatement]: the filter text becomes the text
    between [from views] and [group by]. *)
Definition whereClause (filters : string) : string :=
  if nonempty filters then " where " ++ filters ++ " " else " ".

Definition buildStatement (request : ViewsRequest) (filters : string) : string :=
  let filters := whereClause filters in
  let v := view request in
  if Z.eqb v PAGES then
    "SELECT url as first, count(*) as second from views" ++ filters ++ "group by url;"
  else if Z.eqb v REFERRERS then
    "SELECT ref as first, count(*) as second from views" ++ filters ++ "group by ref;"
  else if Z.eqb v USERAGENTS then
    "SELECT useragent as first, count(*) as second from views" ++ filters
      ++ "group by useragent;"
  else if Z.eqb v HOURS || Z.eqb v DAYS || Z.eqb v WEEKS || Z.eqb v MONTHS then
    let format := timeFormat v in
    "SELECT strftime('" ++ format ++ "', time, 'localtime') as first, count(*) as second from views"
      ++ filters ++ "group by first;"
  else "".

(** The statement text that [request] sends to the database. *)
Definition statementOf (request : ViewsRequest) : string :=
  buildStatement request (fst (buildFilter request)).

(** ** Requesting *)

(** Go's [error]: [None] is [nil], [Some msg] an error value. *)
Definition error : Type := option string.

(** What the cursor has next: a row on which [rows.Scan(&first, &second)]
    succeeds, a row on which it fails, or a failure of [rows.Next()] itself
    to fetch a row, which the cursor keeps for [rows.Err()]. *)
Inductive ScanResult : Type :=
| ScanOk (first : string) (second : Z)
| ScanErr (e : string)
| IterErr (e : string).

(** [*sql.Rows]: the rows not yet visited, and whether the cursor has been
    released. *)
Record Rows : Type := mkRows { pending : list ScanResult; closed : bool }.

(** [rows.Close()] *)
Definition rows_Close (rows : Rows) : Rows :=
  {| pending := pending rows; closed := true |}.

(** What [db.sqlDB.Query(statement, namedArgs...)] yields is decided by the
    storage engine: an error, or the rows of a fresh cursor. *)
Definition QueryFn : Type := string -> list NamedArg -> string + list ScanResult.

(** The result of [request]: the two named results [resultRows] ([None] is
    the [nil] slice) and [e], and the cursor as it is left behind ([None]
    when the query opened none). *)
Record RequestResult : Type := mkRequestResult {
  resultRows : option (list RequestResultRow);
  e : error;
  cursor : option Rows
}.

(** The [for rows.Next()] loop of [request].  [rows.Next()] returns [false]
    and releases the cursor when the cursor is exhausted and when fetching
    the next row fails; the loop then ends and, [rows.Err()] never being
    read, [e] is what the last [Scan] or the [Query] left in it, [nil].  A
    failing [rows.Scan] closes the cursor and returns with the named results
    as they stand. *)
Fixpoint requestLoop (pend : list ScanResult) (resultRows : list RequestResultRow)
  : RequestResult :=
  match pend with
  | [] => mkRequestResult (Some resultRows) None (Some (mkRows [] true))
  | ScanErr err :: rest =>
      mkRequestResult (Some resultRows) (Some err) (Some (rows_Close (mkRows rest false)))
  | IterErr _ :: rest =>
      mkRequestResult (Some resultRows) None (Some (mkRows rest true))
  | ScanOk first second :: rest =>
      requestLoop rest (append resultRows (mkRow first second))
  end.

Definition request (Query : QueryFn) (request : ViewsRequest) : RequestResult :=
  let '(filterString, parameters) := buildFilter request in
  let namedArgs := parameters in
  let statement := buildStatement request filterString in
  match Query statement namedArgs with
  | inl err => mkRequestResult None (Some err) None
  | inr pend => requestLoop pend []
  end.

(** The rows a run of successful scans contributes. *)
Definition scanned (rows : list RequestResultRow) : list ScanResult :=
  map (fun r => ScanOk (First r) (Second r)) rows.

(** ** Tracking *)

(** A row of the [views] table. *)
Record ViewRecord : Type := mkViewRecord {
  rec_url : string;
  rec_ref : string;
  rec_useragent : string;
  rec_time : string
}.

(** What [trackView] does to the outside, in order. *)
Inductive Event : Type :=
| EvUrlParse (rawURL : string)
| EvUserAgent (ua : string)
| EvExec (statement : string) (args : list NamedArg)
| EvPrintln (line : string).

(** The world [trackView] runs in: the [views] table, the error the storage
    engine answers writes with (if it is failing), the engine's current
    time, and the calls made so far. *)
Record World : Type := mkWorld {
  table : list ViewRecord;
  fault : error;
  clock : string;
  trace : list Event
}.

(** A call either returns or panics. *)
Inductive Outcome (A : Type) : Type :=
| Returned (a : A)
| Panicked (reason : string).
Arguments Returned {A} a.
Arguments Panicked {A} reason.

Definition M (A : Type) : Type := World -> Outcome (A * World).

Definition ret {A : Type} (a : A) : M A := fun w => Returned (a, w).

Definition bind {A B : Type} (m : M A) (k : A -> M B) : M B :=
  fun w =>
    match m w with
    | Returned (a, w') => k a w'
    | Panicked reason => Panicked reason
    end.

Definition panic {A : Type} (reason : string) : M A := fun _ => Panicked reason.

Definition emit (ev : Event) : M unit :=
  fun w => Returned (tt, mkWorld (table w) (fault w) (clock w) (append (trace w) ev)).

Declare Scope go_scope.
Delimit Scope go_scope with go.
Notation "x <- m ;; k" := (bind m (fun x => k))
  (at level 61, m at next level, right associativity) : go_scope.
Notation "m ;;; k" := (bind m (fun _ => k))
  (at level 61, right associativity) : go_scope.

(** The value bound to [:name], if any. *)
Fixpoint lookupArg (name : string) (args : list NamedArg) : option string :=
  match args with
  | [] => None
  | a :: rest => if String.eqb (Name a) name then Some (Value a) else lookupArg name rest
  end.

Definition insertStatement : string :=
  "insert into views(url, ref, useragent) values(:url, :ref, :ua)".

(** [db.sqlDB.Exec] on the [views] table: a failing engine answers with its
    error and stores nothing; otherwise the insert appends one row, whose
    [time] column the engine fills in. *)
Definition sqlDB_Exec (statement : string) (args : list NamedArg) : M error :=
  fun w =>
    let tr := append (trace w) (EvExec statement args) in
    match fault w with
    | Some err => Returned (Some err, mkWorld (table w) (fault w) (clock w) tr)
    | None =>
        if String.eqb statement insertStatement then
          match lookupArg "url" args, lookupArg "ref" args, lookupArg "ua" args with
          | Some u, Some r, Some a =>
              Returned (None, mkWorld (append (table w) (mkViewRecord u r a (clock w)))
                                      (fault w) (clock w) tr)
          | _, _, _ =>
              Returned (Some "missing named argument", mkWorld (table w) (fault w) (clock w) tr)
          end
        else Returned (Some "statement not modelled", mkWorld (table w) (fault w) (clock w) tr)
    end.

(** [fmt.Println(a, b)]: the operands separated by a space. *)
Definition fmt_Println (a b : string) : M unit := emit (EvPrintln (a ++ " " ++ b)).

Section Tracking.

(** The two parsers [trackView] calls are libraries outside this
    repository.  [url.Parse] returns a [*URL], [nil] when it reports an
    error; [Hostname] reads the [Host] field of its receiver;
    [user_agent.New(ua).Browser()] returns a name and a version. *)
Variable URL : Type.
Variable url_Parse : string -> option URL.
Variable Hostname : URL -> string.
Variable Browser : string -> string * string.

Local Open Scope go_scope.

(** [parsedRef.Hostname()]: the method dereferences its receiver. *)
Definition call_Hostname (parsedRef : option URL) : M string :=
  match parsedRef with
  | Some u => ret (Hostname u)
  | None => panic "invalid memory address or nil pointer dereference"
  end.

Definition trackView (urlString ref ua : string) : M unit :=
  if Nat.eqb (String.length urlString) 0 then
    ret tt
  else
    ref <- (if negb (String.eqb ref "") then
              emit (EvUrlParse ref) ;;;
              call_Hostname (url_Parse ref)
            else ret ref) ;;
    ua <- (if negb (String.eqb ua "") then
             emit (EvUserAgent ua) ;;;
             let '(uaName, uaVersion) := Browser ua in
             ret (uaName ++ " " ++ uaVersion)
           else ret ua) ;;
    e <- sqlDB_Exec insertStatement
           [Named "url" urlString; Named "ref" ref; Named "ua" ua] ;;
    match e with
    | Some err => fmt_Println "Inserting into DB failed:" err
    | None => ret tt
    end.

End Tracking.

(** ** The libraries and the engine, as far as the properties need them *)

Definition inRange (lo hi c : ascii) : bool :=
  (nat_of_ascii lo <=? nat_of_ascii c)%nat && (nat_of_ascii c <=? nat_of_ascii hi)%nat.

(** [getScheme] of Go's [net/url], which [url.Parse] runs on the text before
    the fragment: [None] is its error "missing protocol scheme", raised for
    a colon at index 0; otherwise the scheme and the rest. *)
Fixpoint getSchemeAt (i : nat) (rest rawURL : string) : option (string * string) :=
  match rest with
  | EmptyString => Some ("", rawURL)
  | String c rest' =>
      if inRange "a" "z" c || inRange "A" "Z" c then getSchemeAt (S i) rest' rawURL
      else if inRange "0" "9" c || Ascii.eqb c "+" || Ascii.eqb c "-" || Ascii.eqb c "." then
        if Nat.eqb i 0 then Some ("", rawURL) else getSchemeAt (S i) rest' rawURL
      else if Ascii.eqb c ":" then
        if Nat.eqb i 0 then None else Some (String.substring 0 i rawURL, rest')
      else Some ("", rawURL)
  end.

Definition getScheme (rawURL : string) : option (string * string) :=
  getSchemeAt 0 rawURL rawURL.

(** The text before the first ["#"]. *)
Fixpoint beforeFragment (rawURL : string) : string :=
  match rawURL with
  | EmptyString => EmptyString
  | String c rest => if Ascii.eqb c "#" then EmptyString else String c (beforeFragment rest)
  end.

(** [url.Parse] up to its scheme scan: when [getScheme] reports an error,
    [Parse] returns a [nil] URL with the error; what it returns on the other
    inputs is left to [afterScheme]. *)
Definition url_Parse_scheme {URL : Type} (afterScheme : string -> option URL)
  (rawURL : string) : option URL :=
  match getScheme (beforeFragment rawURL) with
  | None => None
  | Some _ => afterScheme rawURL
  end.

(** SQLite folds the case of the 26 ASCII letters when [LIKE] compares. *)
Definition sqlite3Tolower (c : ascii) : ascii :=
  if inRange "A" "Z" c then ascii_of_nat (nat_of_ascii c + 32) else c.

Definition likeCharEq (c d : ascii) : bool :=
  Ascii.eqb (sqlite3Tolower c) (sqlite3Tolower d).

(** One UTF-8 character off the front of [s], as the engine reads it: a
    lead byte of [0xC0] or more takes its continuation bytes with it. *)
Fixpoint dropContinuation (s : string) : string :=
  match s with
  | String c s' =>
      if inRange (ascii_of_nat 128) (ascii_of_nat 191) c then dropContinuation s' else s
  | EmptyString => s
  end.

Definition skipChar (s : string) : option string :=
  match s with
  | EmptyString => None
  | String c s' =>
      Some (if (192 <=? nat_of_ascii c)%nat then dropContinuation s' else s')
  end.

(** The places of [s] where a character starts, as the text from there on,
    the end included: a byte from [0x80] to [0xBF] that follows a lead byte
    of [0xC0] or more, or another such byte of its character, starts none.
    [inChar] tells that the byte before belongs to such a character. *)
Fixpoint charStartsFrom (inChar : bool) (s : string) : list string :=
  match s with
  | EmptyString => [EmptyString]
  | String c s' =>
      let continues := inChar && inRange (ascii_of_nat 128) (ascii_of_nat 191) c in
      ((if continues then [] else [s]) ++
       charStartsFrom (continues || (192 <=? nat_of_ascii c)%nat) s')%list
  end.

Definition charStarts (s : string) : list string := charStartsFrom false s.

(** SQLite's [LIKE] with its defaults (no [ESCAPE], case folded): [%] in the
    pattern stands for any run of characters, [_] for any one character,
    every other byte for itself up to ASCII case.  This is the engine's
    verdict for a pattern of ASCII bytes other than NUL, of at most 50000
    bytes, on a text without NUL byte ([engineReads] below).  Outside of
    that the engine differs: it ends pattern and text at a NUL byte,
    compares the character that bytes above 127 in the pattern encode
    rather than the bytes, and refuses a longer pattern. *)
Fixpoint like (pattern s : string) : bool :=
  match pattern with
  | EmptyString => match s with EmptyString => true | _ => false end
  | String c pattern' =>
      if Ascii.eqb c "%" then existsb (like pattern') (charStarts s)
      else if Ascii.eqb c "_" then
        match skipChar s with
        | Some s' => like pattern' s'
        | None => false
        end
      else
        match s with
        | String d s' => likeCharEq c d && like pattern' s'
        | EmptyString => false
        end
  end.

(** [v] up to ASCII case at the front of [s], and somewhere in [s]. *)
Fixpoint prefixNoCase (v s : string) : bool :=
  match v, s with
  | EmptyString, _ => true
  | String c v', String d s' => likeCharEq c d && prefixNoCase v' s'
  | String _ _, EmptyString => false
  end.

Fixpoint containsNoCase (s v : string) : bool :=
  prefixNoCase v s ||
  match s with
  | EmptyString => false
  | String _ s' => containsNoCase s' v
  end.

(** No [LIKE] wildcard among the bytes of [v]. *)
Fixpoint noWildcard (v : string) : bool :=
  match v with
  | EmptyString => true
  | String c v' => negb (Ascii.eqb c "%") && negb (Ascii.eqb c "_") && noWildcard v'
  end.

(** The meaning the engine gives to each clause the filter builders emit,
    on one stored row; [localtime] is the value of
    [datetime(time, 'localtime')] for the row, text being compared byte by
    byte.  [None]: not one of these clauses, or a parameter is unbound. *)
Definition evalClause (clause : string) (args : list NamedArg)
  (row : ViewRecord) (localtime : string) : option bool :=
  if String.eqb clause "datetime(time, 'localtime') between :from and :to" then
    match lookupArg "from" args, lookupArg "to" args with
    | Some lo, Some hi => Some (String.leb lo localtime && String.leb localtime hi)
    | _, _ => None
    end
  else if String.eqb clause "datetime(time, 'localtime') >= :from" then
    option_map (fun lo => String.leb lo localtime) (lookupArg "from" args)
  else if String.eqb clause "datetime(time, 'localtime') <= :to" then
    option_map (fun hi => String.leb localtime hi) (lookupArg "to" args)
  else if String.eqb clause "url like :url" then
    option_map (fun p => like p (rec_url row)) (lookupArg "url" args)
  else if String.eqb clause "ref like :ref" then
    option_map (fun p => like p (rec_ref row)) (lookupArg "ref" args)
  else if String.eqb clause "useragent like :ua" then
    option_map (fun p => like p (rec_useragent row)) (lookupArg "ua" args)
  else None.

(** A filter builder's output, read on a row. *)
Definition evalFilter (built : string * list NamedArg) (row : ViewRecord)
  (localtime : string) : option bool :=
  evalClause (fst built) (snd built) row localtime.

(** The substitutions of SQLite's [strftime] that the statements use. *)
Inductive TimeField : Type :=
| Year4          (* %Y: year, 0000-9999 *)
| Month2         (* %m: month, 01-12 *)
| Day2           (* %d: day of month, 01-31 *)
| Hour2          (* %H: hour, 00-24 *)
| WeekOfYear2    (* %W: week of year, 00-53 *)
| Literal (c : ascii)
| Unknown (c : ascii).

Fixpoint strftimeLayout (format : string) : list TimeField :=
  match format with
  | EmptyString => []
  | String c rest =>
      if Ascii.eqb c "%" then
        match rest with
        | EmptyString => [Unknown c]
        | String k rest' =>
            (if Ascii.eqb k "Y" then Year4
             else if Ascii.eqb k "m" then Month2
             else if Ascii.eqb k "d" then Day2
             else if Ascii.eqb k "H" then Hour2
             else if Ascii.eqb k "W" then WeekOfYear2
             else Unknown k) :: strftimeLayout rest'
        end
      else Literal c :: strftimeLayout rest
  end.

(** ** Vocabulary of the properties *)

(** Two requests ask for the same view and set the same filter fields. *)
Definition sameShape (r1 r2 : ViewsRequest) : Prop :=
  view r1 = view r2 /\
  (from r1 = "" <-> from r2 = "") /\
  (to r1 = "" <-> to r2 = "") /\
  (url r1 = "" <-> url r2 = "") /\
  (ref r1 = "" <-> ref r2 = "") /\
  (ua r1 = "" <-> ua r2 = "").

(** The values a request binds, in the order the builders bind them. *)
Definition boundValues (r : ViewsRequest) : list string :=
  List.concat
    [ if nonempty (from r) then [from r] else [];
      if nonempty (to r) then [to r] else [];
      if nonempty (url r) then ["%" ++ url r ++ "%"] else [];
      if nonempty (ref r) then ["%" ++ ref r ++ "%"] else [];
      if nonempty (ua r) then ["%" ++ ua r ++ "%"] else [] ].

(** The date/time predicate of a request whose [from] or [to] is set:
    between the two when both are, one-sided otherwise. *)
Definition dateTimeClause (r : ViewsRequest) : string :=
  if nonempty (from r) then
    if nonempty (to r) then "datetime(time, 'localtime') between :from and :to"
    else "datetime(time, 'localtime') >= :from"
  else "datetime(time, 'localtime') <= :to".

(** The predicates of a request that are active, in the order date/time,
    url, referrer, user agent; a filter that is not set contributes none. *)
Definition activeClauses (r : ViewsRequest) : list string :=
  List.concat
    [ if nonempty (from r) || nonempty (to r) then [dateTimeClause r] else [];
      if nonempty (url r) then ["url like :url"] else [];
      if nonempty (ref r) then ["ref like :ref"] else [];
      if nonempty (ua r) then ["useragent like :ua"] else [] ].

(** Predicates joined with a logical AND: the first, then [and] and the
    next, and so on; nothing at all for no predicate. *)
Fixpoint conjunction (clauses : list string) : string :=
  match clauses with
  | [] => ""
  | [clause] => clause
  | clause :: rest => clause ++ " and " ++ conjunction rest
  end.

(** A request with a lower date bound, a url and a user agent set. *)
Definition filteredRequest : ViewsRequest :=
  mkViewsRequest PAGES "2019-04-01" "" "blog" "" "Firefox".

(** No filter field is set. *)
Definition noFilters (r : ViewsRequest) : Prop :=
  from r = "" /\ to r = "" /\ url r = "" /\ ref r = "" /\ ua r = "".

(** The view is one of the seven constants. *)
Definition recognized (v : View) : Prop := (1 <= v <= 7)%Z.

(** Worlds and engines the properties are tried on. *)
Definition emptyWorld : World := mkWorld [] None "2019-04-03 12:00:00" [].

Definition scanFailsOnSecondRow : QueryFn :=
  fun _ _ => inr [ScanOk "/a" 2%Z; ScanErr "sql: Scan error on column index 1"; ScanOk "/b" 1%Z].

Definition noRows : QueryFn := fun _ _ => inr [].

Definition pagesRequest : ViewsRequest := mkViewsRequest PAGES "" "" "" "" "".

(** A parser that fails exactly where [getScheme] does and otherwise keeps
    the text as the host. *)
Definition schemeOnlyParse : string -> option string :=
  url_Parse_scheme (fun rawURL => Some rawURL).

Definition track (urlString ref ua : string) : M unit :=
  trackView string schemeOnlyParse (fun host => host) (fun ua => (ua, "")) urlString ref ua.

(** The caller is handed no row: the slice is [nil] or empty. *)
Definition discardsPartialRows (res : RequestResult) : Prop :=
  resultRows res = None \/ resultRows res = Some [].

(** [s] with its ASCII letters in lower case. *)
Fixpoint foldCase (s : string) : string :=
  match s with
  | EmptyString => EmptyString
  | String c s' => String (sqlite3Tolower c) (foldCase s')
  end.

(** Every byte of [s] is between 1 and 127. *)
Fixpoint asciiText (s : string) : bool :=
  match s with
  | EmptyString => true
  | String c s' =>
      (1 <=? nat_of_ascii c)%nat && (nat_of_ascii c <=? 127)%nat && asciiText s'
  end.

(** [s] is empty or starts with a byte up to 127. *)
Definition startsPlain (s : string) : Prop :=
  match s with
  | EmptyString => True
  | String c _ => (nat_of_ascii c <= 127)%nat
  end.

(** No byte of [s] is NUL. *)
Fixpoint noNul (s : string) : bool :=
  match s with
  | EmptyString => true
  | String c s' => negb (Nat.eqb (nat_of_ascii c) 0) && noNul s'
  end.

(** The pattern [%value%] is within the engine's limit of 50000 bytes. *)
Definition withinLikeLimit (value : string) : bool :=
  (Z.of_nat (String.length value) + 2 <=? 50000)%Z.

(** The filter value and the column are such that the engine reads the
    pattern [%value%] and the column byte by byte, as [like] does. *)
Definition engineReads (value column : string) : Prop :=
  asciiText value = true /\ withinLikeLimit value = true /\ noNul column = true.

(** [res] is the verdict of a filter that keeps exactly the rows whose
    [column] has [value] somewhere inside, letter case aside. *)
Definition matchesSubstring (column value : string) (res : option bool) : Prop :=
  exists b : bool,
    res = Some b /\
    (b = true <->
     exists before w after : string,
       column = before ++ w ++ after /\ foldCase w = foldCase value).

(** ** Vocabulary of the further properties *)

(** What [trackView] stores for a referrer: the empty string for none, the
    hostname for one that parses; [None] when [url.Parse] rejects it. *)
Definition cleanedRef {URL : Type} (url_Parse : string -> option URL)
  (Hostname : URL -> string) (ref : string) : option string :=
  if String.eqb ref "" then Some "" else option_map Hostname (url_Parse ref).

(** What [trackView] stores for a user agent: the empty string for none,
    otherwise the browser's name, a space, and its version. *)
Definition summarizedUA (Browser : string -> string * string) (ua : string) : string :=
  if String.eqb ua "" then "" else fst (Browser ua) ++ " " ++ snd (Browser ua).

(** The parser calls [trackView] makes for a referrer and a user agent. *)
Definition parserCalls (ref ua : string) : list Event :=
  ((if String.eqb ref "" then [] else [EvUrlParse ref]) ++
   (if String.eqb ua "" then [] else [EvUserAgent ua]))%list.

(** The insert [trackView] sends for the three stored fields. *)
Definition insertOf (urlString ref ua : string) : Event :=
  EvExec insertStatement [Named "url" urlString; Named "ref" ref; Named "ua" ua].

(** Some filter field is set. *)
Definition anyFilter (r : ViewsRequest) : bool :=
  nonempty (from r) || nonempty (to r) || nonempty (url r) ||
  nonempty (ref r) || nonempty (ua r).

Definition isBound (name : string) (args : list NamedArg) : bool :=
  match lookupArg name args with
  | Some _ => true
  | None => false
  end.

(** The conjunction of clauses, each read with the same parameter list. *)
Fixpoint evalAll (clauses : list string) (args : list NamedArg)
  (row : ViewRecord) (localtime : string) : option bool :=
  match clauses with
  | [] => Some true
  | clause :: rest =>
      match evalClause clause args row localtime, evalAll rest args row localtime with
      | Some b, Some b' => Some (b && b')
      | _, _ => None
      end
  end.

(** A row passes every filter field that is set. *)
Definition rowPasses (r : ViewsRequest) (row : ViewRecord) (localtime : string) : bool :=
  (if nonempty (from r) then String.leb (from r) localtime else true) &&
  (if nonempty (to r) then String.leb localtime (to r) else true) &&
  (if nonempty (url r) then like ("%" ++ url r ++ "%") (rec_url row) else true) &&
  (if nonempty (ref r) then like ("%" ++ ref r ++ "%") (rec_ref row) else true) &&
  (if nonempty (ua r) then like ("%" ++ ua r ++ "%") (rec_useragent row) else true).

(** The expression a view counts by, and the column its statement groups
    by. *)
Definition selectKey (v : View) : string :=
  if Z.eqb v PAGES then "url"
  else if Z.eqb v REFERRERS then "ref"
  else if Z.eqb v USERAGENTS then "useragent"
  else "strftime('" ++ timeFormat v ++ "', time, 'localtime')".

Definition groupKey (v : View) : string :=
  if Z.eqb v PAGES then "url"
  else if Z.eqb v REFERRERS then "ref"
  else if Z.eqb v USERAGENTS then "useragent"
  else "first".

(** ** The engine's reading of a statement

    What SQLite does with the statements [buildStatement] emits, as far as
    their shape goes: one key expression selected as [first], [count( * )]
    as [second], an optional conjunction of the clauses of the filter
    builders, and a grouping by the key. *)

(** An instant in the engine's local time zone, as [strftime] and
    [datetime] with the ['localtime'] modifier see it; [lt_week] is the week
    of the year, counted from the first Monday. *)
Record LocalTime : Type := mkLocalTime {
  lt_year : nat;
  lt_month : nat;
  lt_day : nat;
  lt_hour : nat;
  lt_minute : nat;
  lt_second : nat;
  lt_week : nat
}.

(** A number in decimal, filled with zeros on the left up to [width]. *)
Definition zeroPad (width n : nat) : string :=
  let digits := DecimalString.NilZero.string_of_uint (Nat.to_uint n) in
  String.concat "" (repeat "0" (width - String.length digits)) ++ digits.

Definition renderField (lt : LocalTime) (f : TimeField) : option string :=
  match f with
  | Year4 => Some (zeroPad 4 (lt_year lt))
  | Month2 => Some (zeroPad 2 (lt_month lt))
  | Day2 => Some (zeroPad 2 (lt_day lt))
  | Hour2 => Some (zeroPad 2 (lt_hour lt))
  | WeekOfYear2 => Some (zeroPad 2 (lt_week lt))
  | Literal c => Some (String c "")
  | Unknown _ => None
  end.

Fixpoint renderFields (lt : LocalTime) (fields : list TimeField) : option string :=
  match fields with
  | [] => Some ""
  | f :: rest =>
      match renderField lt f, renderFields lt rest with
      | Some s, Some s' => Some (s ++ s')
      | _, _ => None
      end
  end.

(** [strftime(format, time, 'localtime')]; [None] is the NULL the engine
    gives for a format it does not know. *)
Definition strftime (format : string) (lt : LocalTime) : option string :=
  renderFields lt (strftimeLayout format).

(** [datetime(time, 'localtime')] *)
Definition datetimeText (lt : LocalTime) : string :=
  zeroPad 4 (lt_year lt) ++ "-" ++ zeroPad 2 (lt_month lt) ++ "-" ++
  zeroPad 2 (lt_day lt) ++ " " ++ zeroPad 2 (lt_hour lt) ++ ":" ++
  zeroPad 2 (lt_minute lt) ++ ":" ++ zeroPad 2 (lt_second lt).

(** [s] without the prefix [p], if it starts with it. *)
Fixpoint stripPrefix (p s : string) : option string :=
  match p with
  | EmptyString => Some s
  | String c p' =>
      match s with
      | String d s' => if Ascii.eqb c d then stripPrefix p' s' else None
      | EmptyString => None
      end
  end.

(** [s] cut at the first occurrence of [sep]. *)
Fixpoint splitAt (sep s : string) : option (string * string) :=
  match stripPrefix sep s with
  | Some rest => Some ("", rest)
  | None =>
      match s with
      | EmptyString => None
      | String c s' =>
          match splitAt sep s' with
          | Some (before, after) => Some (String c before, after)
          | None => None
          end
      end
  end.

(** The parts of a statement: the key expression, the text after [where]
    (empty for none), and the column after [group by]. *)
Record Select : Type := mkSelect {
  sel_key : string;
  sel_where : string;
  sel_group : string
}.

Definition parseGroup (key filters rest : string) : option Select :=
  match splitAt ";" rest with
  | Some (column, EmptyString) => Some (mkSelect key filters column)
  | _ => None
  end.

Definition parseSelect (statement : string) : option Select :=
  match stripPrefix "SELECT " statement with
  | None => None
  | Some rest =>
      match splitAt " as first, count(*) as second from views" rest with
      | None => None
      | Some (key, tail) =>
          match stripPrefix " where " tail with
          | Some filtered =>
              match splitAt " group by " filtered with
              | Some (filters, rest') => parseGroup key filters rest'
              | None => None
              end
          | None =>
              match stripPrefix " group by " tail with
              | Some rest' => parseGroup key "" rest'
              | None => None
              end
          end
      end
  end.

(** The clauses the engine is given a meaning for in [evalClause]. *)
Definition knownClauses : list string :=
  [ "datetime(time, 'localtime') between :from and :to";
    "datetime(time, 'localtime') >= :from";
    "datetime(time, 'localtime') <= :to";
    "url like :url";
    "ref like :ref";
    "useragent like :ua" ].

Fixpoint firstClause (candidates : list string) (text : string)
  : option (string * string) :=
  match candidates with
  | [] => None
  | clause :: others =>
      match stripPrefix clause text with
      | Some rest => Some (clause, rest)
      | None => firstClause others text
      end
  end.

(** A conjunction of known clauses, read from the left. *)
Fixpoint parseClauses (fuel : nat) (text : string) : option (list string) :=
  match fuel with
  | O => None
  | S fuel' =>
      match firstClause knownClauses text with
      | None => None
      | Some (clause, rest) =>
          if String.eqb rest "" then Some [clause]
          else
            match stripPrefix " and " rest with
            | Some more =>
                match parseClauses fuel' more with
                | Some clauses => Some (clause :: clauses)
                | None => None
                end
            | None => None
            end
      end
  end.

Definition parseWhere (text : string) : option (list string) :=
  if String.eqb text "" then Some [] else parseClauses (String.length text) text.

(** The value of the key expression on a row. *)
Definition evalKey (key : string) (row : ViewRecord) (lt : LocalTime) : option string :=
  if String.eqb key "url" then Some (rec_url row)
  else if String.eqb key "ref" then Some (rec_ref row)
  else if String.eqb key "useragent" then Some (rec_useragent row)
  else
    match stripPrefix "strftime('" key with
    | Some rest =>
        match splitAt "', time, 'localtime')" rest with
        | Some (format, EmptyString) => strftime format lt
        | _ => None
        end
    | None => None
    end.

(** The rows the [where] clauses keep. *)
Fixpoint selectRows (clauses : list string) (args : list NamedArg)
  (localOf : string -> LocalTime) (table : list ViewRecord) : option (list ViewRecord) :=
  match table with
  | [] => Some []
  | row :: rest =>
      match evalAll clauses args row (datetimeText (localOf (rec_time row))),
            selectRows clauses args localOf rest with
      | Some true, Some kept => Some (row :: kept)
      | Some false, Some kept => Some kept
      | _, _ => None
      end
  end.

Fixpoint keysOf (key : string) (localOf : string -> LocalTime) (rows : list ViewRecord)
  : option (list string) :=
  match rows with
  | [] => Some []
  | row :: rest =>
      match evalKey key row (localOf (rec_time row)), keysOf key localOf rest with
      | Some k, Some ks => Some (k :: ks)
      | _, _ => None
      end
  end.

(** [count( * )] under [group by]: one row for each distinct key, with the
    number of rows that have it.  The engine fixes no order for the groups;
    they are listed here by last occurrence, and no property depends on
    it. *)
Definition groupCount (keys : list string) : list RequestResultRow :=
  map (fun k => mkRow k (Z.of_nat (count_occ string_dec keys k)))
      (nodup string_dec keys).

(** The rows the engine answers a statement with, given how it reads the
    stored times in the local zone; [None] for a statement that is not of
    the shape above. *)
Definition runSelect (localOf : string -> LocalTime) (statement : string)
  (args : list NamedArg) (table : list ViewRecord) : option (list RequestResultRow) :=
  match parseSelect statement with
  | None => None
  | Some sel =>
      if String.eqb (sel_group sel) "first" || String.eqb (sel_group sel) (sel_key sel) then
        match parseWhere (sel_where sel) with
        | None => None
        | Some clauses =>
            match selectRows clauses args localOf table with
            | None => None
            | Some rows =>
                match keysOf (sel_key sel) localOf rows with
                | Some keys => Some (groupCount keys)
                | None => None
                end
            end
        end
      else None
  end.

(** ** Vocabulary of the grouped counts *)








(** Three views at two instants, for trying the counts. *)
Definition aprilThird (time : string) : LocalTime :=
  if String.eqb time "2019-04-03 07:05:07" then mkLocalTime 2019 4 3 9 5 7 13
  else mkLocalTime 2019 4 3 14 0 0 13.

Definition threeViews : list ViewRecord :=
  [ mkViewRecord "/a" "example.com" "Firefox 66.0" "2019-04-03 07:05:07";
    mkViewRecord "/a" "" "Chrome 73.0" "2019-04-03 12:00:00";
    mkViewRecord "/b" "" "Firefox 66.0" "2019-04-03 07:05:07" ].

(** * Properties *)

(** ** Strings *)

Lemma nonempty_false (s : string) : nonempty s = false <-> s = "".
Proof.
  destruct s; simpl; split; intro H; try reflexivity; discriminate.
Qed.

Lemma nonempty_true (s : string) : nonempty s = true <-> s <> "".
Proof.
  destruct s; simpl; split; intro H; try reflexivity; try discriminate.
  now contradiction H.
Qed.

Lemma nonempty_same (s1 s2 : string) :
  (s1 = "" <-> s2 = "") -> nonempty s1 = nonempty s2.
Proof.
  intros [H12 H21].
  destruct s1, s2; try reflexivity.
  - specialize (H12 eq_refl). discriminate.
  - specialize (H21 eq_refl). discriminate.
Qed.

Lemma string_compare_refl (s : string) : String.compare s s = Eq.
Proof.
  induction s as [|c s IH]; simpl; [reflexivity|].
  unfold Ascii.compare. now rewrite N.compare_refl.
Qed.

Lemma string_leb_refl (s : string) : String.leb s s = true.
Proof. unfold String.leb. now rewrite string_compare_refl. Qed.

Ltac set_fields r :=
  repeat match goal with
         | H : ?f r = "" |- _ => apply nonempty_false in H
         | H : ?f r <> "" |- _ => apply nonempty_true in H
         end.

(** ** The filter builders *)

(** C6.  [buildDateTimeFilter] emits the inclusive [between] predicate and
    binds [from] then [to] when both bounds are set, the one-sided [>=]
    when only [from] is set, the one-sided [<=] when only [to] is set, and
    neither a predicate nor a parameter when none is set.  The predicates
    are read on the local time [t] of a row, whose boundary values are
    inside the range. *)
Theorem buildDateTimeFilter_cases
  (r : ViewsRequest) (namedArg : list NamedArg) (row : ViewRecord) (t : string) :
  (from r <> "" -> to r <> "" ->
     buildDateTimeFilter r namedArg =
       ("datetime(time, 'localtime') between :from and :to",
        (namedArg ++ [Named "from" (from r); Named "to" (to r)])%list) /\
     evalFilter (buildDateTimeFilter r []) row t =
       Some (String.leb (from r) t && String.leb t (to r)) /\
     evalFilter (buildDateTimeFilter r []) row (from r) = Some (String.leb (from r) (to r)) /\
     evalFilter (buildDateTimeFilter r []) row (to r) = Some (String.leb (from r) (to r))) /\
  (from r <> "" -> to r = "" ->
     buildDateTimeFilter r namedArg =
       ("datetime(time, 'localtime') >= :from", (namedArg ++ [Named "from" (from r)])%list) /\
     evalFilter (buildDateTimeFilter r []) row t = Some (String.leb (from r) t) /\
     evalFilter (buildDateTimeFilter r []) row (from r) = Some true) /\
  (from r = "" -> to r <> "" ->
     buildDateTimeFilter r namedArg =
       ("datetime(time, 'localtime') <= :to", (namedArg ++ [Named "to" (to r)])%list) /\
     evalFilter (buildDateTimeFilter r []) row t = Some (String.leb t (to r)) /\
     evalFilter (buildDateTimeFilter r []) row (to r) = Some true) /\
  (from r = "" -> to r = "" ->
     buildDateTimeFilter r namedArg = ("", namedArg)).
Proof.
  repeat split; intros; set_fields r;
    unfold evalFilter, buildDateTimeFilter, append;
    repeat match goal with H : nonempty _ = _ |- _ => rewrite H end;
    cbn [andb fst snd]; rewrite <- ?app_assoc; try reflexivity;
    cbn; rewrite ?string_leb_refl, ?andb_true_r; reflexivity.
Qed.

Lemma buildDateTimeFilter_cases_witness :
  buildDateTimeFilter (mkViewsRequest DAYS "2019-04-01" "2019-04-30" "" "" "") [] =
    ("datetime(time, 'localtime') between :from and :to",
     [Named "from" "2019-04-01"; Named "to" "2019-04-30"]).
Proof.
  destruct (buildDateTimeFilter_cases
              (mkViewsRequest DAYS "2019-04-01" "2019-04-30" "" "" "") []
              (mkViewRecord "/a" "" "" "") "2019-04-03 12:00:00") as [Hboth _].
  apply Hboth; simpl; discriminate.
Defined.

Ltac unfold_builders :=
  unfold statementOf, activeClauses, dateTimeClause, boundValues, buildFilter,
    buildDateTimeFilter, buildUrlFilter, buildRefFilter, buildUseragentFilter.

Ltac split_fields r :=
  destruct (nonempty (from r)), (nonempty (to r)), (nonempty (url r)),
    (nonempty (ref r)), (nonempty (ua r)).

(** C7.  The filter text of [buildFilter] is the active predicates, in the
    order date/time, url, referrer, user agent, joined with [and]; a filter
    that is not set contributes nothing.  With no filter set there is no
    predicate, no parameter, and no [where] in the statement of any view. *)
Theorem buildFilter_joins_active_clauses (r : ViewsRequest) :
  fst (buildFilter r) = conjunction (activeClauses r) /\
  (noFilters r ->
     buildFilter r = ("", []) /\
     whereClause (fst (buildFilter r)) = " " /\
     strings_Contains (statementOf r) "where" = false).
Proof.
  split.
  - unfold_builders. split_fields r; reflexivity.
  - intros (Hf & Ht & Hu & Hr & Ha).
    assert (Hb : buildFilter r = ("", [])).
    { unfold_builders. set_fields r. rewrite Hf, Ht, Hu, Hr, Ha. reflexivity. }
    unfold statementOf. rewrite Hb. repeat split.
    unfold buildStatement.
    destruct (Z.eqb (view r) PAGES); [reflexivity|].
    destruct (Z.eqb (view r) REFERRERS); [reflexivity|].
    destruct (Z.eqb (view r) USERAGENTS); [reflexivity|].
    unfold timeFormat.
    destruct (Z.eqb (view r) HOURS); [reflexivity|].
    destruct (Z.eqb (view r) DAYS); [reflexivity|].
    destruct (Z.eqb (view r) WEEKS); [reflexivity|].
    destruct (Z.eqb (view r) MONTHS); reflexivity.
Qed.

Lemma buildFilter_joins_active_clauses_witness :
  fst (buildFilter filteredRequest) =
    "datetime(time, 'localtime') >= :from and url like :url and useragent like :ua" /\
  (buildFilter pagesRequest = ("", []) /\
   whereClause (fst (buildFilter pagesRequest)) = " " /\
   strings_Contains (statementOf pagesRequest) "where" = false).
Proof.
  split.
  - exact (proj1 (buildFilter_joins_active_clauses filteredRequest)).
  - apply (buildFilter_joins_active_clauses pagesRequest).
    repeat split.
Defined.

(** C1.  The statement text depends on the view and on which filter fields
    are set, not on their values: two requests of the same shape get the
    same text and the same parameter names, and the values travel in the
    bound parameters only. *)
Theorem statement_independent_of_filter_values (r1 r2 : ViewsRequest) :
  sameShape r1 r2 ->
  statementOf r1 = statementOf r2 /\
  map Name (snd (buildFilter r1)) = map Name (snd (buildFilter r2)) /\
  map Value (snd (buildFilter r1)) = boundValues r1 /\
  map Value (snd (buildFilter r2)) = boundValues r2.
Proof.
  intros (Hv & Hf & Ht & Hu & Hr & Ha).
  apply nonempty_same in Hf, Ht, Hu, Hr, Ha.
  unfold_builders. unfold buildStatement.
  rewrite Hv, Hf, Ht, Hu, Hr, Ha.
  split_fields r2; repeat split; reflexivity.
Qed.

Lemma statement_independent_of_filter_values_witness :
  statementOf (mkViewsRequest PAGES "" "" "blog" "" "x") =
  statementOf (mkViewsRequest PAGES "" "" "a' OR '1'='1" "" "%;--").
Proof.
  apply (statement_independent_of_filter_values
           (mkViewsRequest PAGES "" "" "blog" "" "x")
           (mkViewsRequest PAGES "" "" "a' OR '1'='1" "" "%;--")).
  unfold sameShape; simpl; repeat split; intro H; discriminate H.
Defined.

(** ** The statements *)


Lemma view_cases (v : Z) :
  recognized v ->
  v = PAGES \/ v = REFERRERS \/ v = USERAGENTS \/
  v = HOURS \/ v = DAYS \/ v = WEEKS \/ v = MONTHS.
Proof.
  unfold recognized, PAGES, REFERRERS, USERAGENTS, HOURS, DAYS, WEEKS, MONTHS. lia.
Qed.











(** One view in the ninth hour and, filtered out, one in the fourteenth:
    the HOURS statement with a user agent filter is answered with the one
    bucket and its count. *)
Lemma hours_of_threeViews :
  runSelect aprilThird
    (statementOf (mkViewsRequest HOURS "" "" "" "" "fire"))
    (snd (buildFilter (mkViewsRequest HOURS "" "" "" "" "fire"))) threeViews =
    Some [mkRow "2019-04-03 09" 2%Z].
Proof. reflexivity. Qed.

(** C9.  [buildStatement] is a total function, and on a view outside the
    seven constants it returns the empty statement, whatever the filters. *)
Theorem buildStatement_unrecognized_view (r : ViewsRequest) (filters : string) :
  ~ recognized (view r) ->
  buildStatement r filters = "" /\ statementOf r = "".
Proof.
  intros Hv. unfold statementOf.
  assert (H : forall f, buildStatement r f = "").
  { intros f. unfold buildStatement, recognized, PAGES, REFERRERS, USERAGENTS,
      HOURS, DAYS, WEEKS, MONTHS in *.
    repeat match goal with
           | |- context [Z.eqb ?a ?b] => destruct (Z.eqb_spec a b); [lia|]
           end.
    reflexivity. }
  split; apply H.
Qed.

Lemma buildStatement_unrecognized_view_witness :
  buildStatement (mkViewsRequest 8%Z "2019-04-01" "" "blog" "" "") "url like :url" = "" /\
  statementOf (mkViewsRequest 8%Z "2019-04-01" "" "blog" "" "") = "".
Proof.
  apply (buildStatement_unrecognized_view
           (mkViewsRequest 8%Z "2019-04-01" "" "blog" "" "") "url like :url").
  unfold recognized; simpl; lia.
Defined.

(** A recognized view never gets the empty statement. *)
Lemma buildStatement_recognized_view (r : ViewsRequest) (filters : string) :
  recognized (view r) -> buildStatement r filters <> "".
Proof.
  unfold recognized. intros Hv.
  assert (Hc : view r = PAGES \/ view r = REFERRERS \/ view r = USERAGENTS \/
               view r = HOURS \/ view r = DAYS \/ view r = WEEKS \/ view r = MONTHS).
  { unfold PAGES, REFERRERS, USERAGENTS, HOURS, DAYS, WEEKS, MONTHS. lia. }
  unfold buildStatement.
  destruct Hc as [Hc|[Hc|[Hc|[Hc|[Hc|[Hc|Hc]]]]]]; rewrite Hc; discriminate.
Qed.

(** ** Running a request *)

Lemma requestLoop_scan_error
  (got : list RequestResultRow) (err : string) (rest : list ScanResult)
  (acc : list RequestResultRow) :
  requestLoop (scanned got ++ ScanErr err :: rest) acc =
    mkRequestResult (Some (acc ++ got)%list) (Some err) (Some (mkRows rest true)).
Proof.
  revert acc. induction got as [|[first second] got IH]; intros acc; simpl.
  - now rewrite app_nil_r.
  - rewrite IH. unfold append. now rewrite <- app_assoc.
Qed.

Lemma request_runs_query (Query : QueryFn) (r : ViewsRequest) :
  request Query r =
    match Query (statementOf r) (snd (buildFilter r)) with
    | inl err => mkRequestResult None (Some err) None
    | inr pend => requestLoop pend []
    end.
Proof.
  unfold request, statementOf. now destruct (buildFilter r).
Qed.

(** C2, as the code has it.  When a scan fails, [request] returns the error
    and has closed the cursor, and its row result holds the rows that were
    scanned before the failure. *)
Theorem request_scan_error
  (Query : QueryFn) (r : ViewsRequest)
  (got : list RequestResultRow) (err : string) (rest : list ScanResult) :
  Query (statementOf r) (snd (buildFilter r)) = inr (scanned got ++ ScanErr err :: rest)%list ->
  request Query r =
    mkRequestResult (Some got) (Some err) (Some (mkRows rest true)).
Proof.
  intros HQ. rewrite request_runs_query, HQ.
  apply requestLoop_scan_error.
Qed.

Lemma request_scan_error_witness :
  request scanFailsOnSecondRow pagesRequest =
    mkRequestResult (Some [mkRow "/a" 2%Z])
      (Some "sql: Scan error on column index 1")
      (Some (mkRows [ScanOk "/b" 1%Z] true)).
Proof.
  apply (request_scan_error scanFailsOnSecondRow pagesRequest [mkRow "/a" 2%Z]).
  reflexivity.
Defined.

(** C2, as stated, fails: after one good row and a failing scan the caller
    gets the error together with the good row. *)
Lemma request_scan_error_keeps_rows :
  e (request scanFailsOnSecondRow pagesRequest) = Some "sql: Scan error on column index 1" /\
  resultRows (request scanFailsOnSecondRow pagesRequest) = Some [mkRow "/a" 2%Z] /\
  ~ discardsPartialRows (request scanFailsOnSecondRow pagesRequest).
Proof.
  repeat split. intros [H|H]; discriminate H.
Qed.

(** C10.  When the query succeeds and the cursor holds no row, [request]
    returns the empty slice, which is not [nil], and no error. *)
Theorem request_no_rows (Query : QueryFn) (r : ViewsRequest) :
  Query (statementOf r) (snd (buildFilter r)) = inr [] ->
  resultRows (request Query r) = Some [] /\
  resultRows (request Query r) <> None /\
  e (request Query r) = None /\
  cursor (request Query r) = Some (mkRows [] true).
Proof.
  intros HQ. rewrite request_runs_query, HQ. simpl.
  repeat split. discriminate.
Qed.

Lemma request_no_rows_witness :
  resultRows (request noRows pagesRequest) = Some [] /\
  resultRows (request noRows pagesRequest) <> None /\
  e (request noRows pagesRequest) = None /\
  cursor (request noRows pagesRequest) = Some (mkRows [] true).
Proof.
  apply (request_no_rows noRows pagesRequest). reflexivity.
Defined.

(** A failing query, by contrast, leaves the row result [nil]. *)
Lemma request_query_error (Query : QueryFn) (r : ViewsRequest) (err : string) :
  Query (statementOf r) (snd (buildFilter r)) = inl err ->
  request Query r = mkRequestResult None (Some err) None.
Proof.
  intros HQ. now rewrite request_runs_query, HQ.
Qed.

(** ** Tracking a view *)

Section TrackingFacts.

Variable URL : Type.
Variable url_Parse : string -> option URL.
Variable Hostname : URL -> string.
Variable Browser : string -> string * string.

(** C5.  With an empty url [trackView] returns at once: the table, and so
    its row count, is as before, nothing is printed, and neither parser
    nor the database has been called. *)
Theorem trackView_empty_url (ref ua : string) (w : World) :
  trackView URL url_Parse Hostname Browser "" ref ua w = Returned (tt, w).
Proof. reflexivity. Qed.

(** C3, where the code departs from it.  A referrer that [url.Parse]
    rejects makes [trackView] panic: the parse error is dropped and
    [Hostname] is called on the [nil] URL. *)
Theorem trackView_rejected_referrer_panics (urlString ref ua : string) (w : World) :
  urlString <> "" -> ref <> "" -> url_Parse ref = None ->
  trackView URL url_Parse Hostname Browser urlString ref ua w =
    Panicked "invalid memory address or nil pointer dereference".
Proof.
  intros Hu Hr Hp. unfold trackView.
  destruct urlString as [|c u]; [now contradiction Hu|].
  destruct ref as [|d rf]; [now contradiction Hr|].
  cbn [String.length Nat.eqb String.eqb negb].
  replace (String.eqb (String d rf) "") with false by (now destruct d).
  cbn [negb]. unfold bind at 1. unfold bind at 1.
  cbn. rewrite Hp. reflexivity.
Qed.

(** A referrer that parses is stored as its hostname, in one new row. *)
Lemma trackView_parsed_referrer (urlString ref : string) (u : URL) (w : World) :
  urlString <> "" -> ref <> "" -> url_Parse ref = Some u -> fault w = None ->
  exists w', trackView URL url_Parse Hostname Browser urlString ref "" w = Returned (tt, w') /\
             table w' = (table w ++ [mkViewRecord urlString (Hostname u) "" (clock w)])%list.
Proof.
  intros Hu Hr Hp Hf. unfold trackView.
  destruct urlString as [|c us]; [now contradiction Hu|].
  destruct ref as [|d rf]; [now contradiction Hr|].
  replace (String.eqb (String d rf) "") with false by (now destruct d).
  cbn. unfold bind, emit, call_Hostname, sqlDB_Exec, ret. cbn.
  rewrite Hp. cbn. rewrite Hf. cbn. eexists. split; reflexivity.
Qed.

End TrackingFacts.

Lemma trackView_rejected_referrer_panics_witness :
  track "/page" ":foo" "" emptyWorld =
    Panicked "invalid memory address or nil pointer dereference".
Proof.
  apply (trackView_rejected_referrer_panics string schemeOnlyParse
           (fun host => host) (fun ua => (ua, "")) "/page" ":foo" "" emptyWorld).
  - discriminate.
  - discriminate.
  - reflexivity.
Defined.

(** ** The substring filters *)

Lemma like_percent (p s : string) :
  like (String "%" p) s = existsb (like p) (charStarts s).
Proof. reflexivity. Qed.

Lemma like_literal (c : ascii) (p s : string) :
  Ascii.eqb c "%" = false -> Ascii.eqb c "_" = false ->
  like (String c p) s =
    match s with
    | String d s' => likeCharEq c d && like p s'
    | EmptyString => false
    end.
Proof. intros H1 H2. simpl. now rewrite H1, H2. Qed.

(** The end of the text and its beginning are places where a character
    starts, and so is every place where an ASCII byte stands. *)
Lemma charStartsFrom_end (inChar : bool) (s : string) :
  In "" (charStartsFrom inChar s).
Proof.
  revert inChar. induction s as [|c s IH]; intros inChar; simpl; [now left|].
  apply in_or_app. right. apply IH.
Qed.

Lemma charStarts_whole (s : string) : In s (charStarts s).
Proof. destruct s as [|c s]; simpl; now left. Qed.

Lemma plain_not_continuation (c : ascii) :
  (nat_of_ascii c <= 127)%nat ->
  inRange (ascii_of_nat 128) (ascii_of_nat 191) c = false.
Proof.
  intros Hc. unfold inRange. apply andb_false_iff. left.
  apply Nat.leb_gt. change (nat_of_ascii (ascii_of_nat 128)) with 128%nat. lia.
Qed.

Lemma charStartsFrom_plain (before s : string) (inChar : bool) :
  startsPlain s -> In s (charStartsFrom inChar (before ++ s)).
Proof.
  intros Hs. revert inChar. induction before as [|d before IH]; intros inChar.
  - destruct s as [|c s]; simpl; [now left|].
    simpl in Hs. rewrite (plain_not_continuation _ Hs), andb_false_r. now left.
  - simpl. apply in_or_app. right. apply IH.
Qed.

Lemma asciiText_startsPlain (v rest : string) :
  asciiText v = true -> v <> "" -> startsPlain (v ++ rest).
Proof.
  destruct v as [|c v]; intros Hv Hne; [now contradiction Hne|].
  simpl in *. apply andb_prop in Hv as [Hc _]. apply andb_prop in Hc as [_ Hc].
  now apply Nat.leb_le in Hc.
Qed.

Lemma like_trailing_percent (s : string) : like "%" s = true.
Proof.
  rewrite like_percent. apply existsb_exists.
  exists "". split; [apply charStartsFrom_end | reflexivity].
Qed.

(** A value without wildcards, followed by [%], is a prefix test. *)
Lemma like_prefix (v s : string) :
  noWildcard v = true -> like (v ++ "%") s = prefixNoCase v s.
Proof.
  revert s. induction v as [|c v IH]; intros s Hv.
  - apply like_trailing_percent.
  - simpl in Hv. apply andb_prop in Hv as [Hc Hv]. apply andb_prop in Hc as [Hp Hu].
    apply negb_true_iff in Hp, Hu.
    change (String c v ++ "%") with (String c (v ++ "%")).
    rewrite (like_literal _ _ _ Hp Hu).
    destruct s as [|d s]; [reflexivity|].
    simpl. now rewrite IH.
Qed.

(** An ASCII byte of the pattern never equals a byte above 127. *)
Lemma sqlite3Tolower_plain (c : ascii) :
  (nat_of_ascii c <= 127)%nat -> (nat_of_ascii (sqlite3Tolower c) <= 127)%nat.
Proof.
  intros Hc. unfold sqlite3Tolower, inRange.
  change (nat_of_ascii "A") with 65%nat. change (nat_of_ascii "Z") with 90%nat.
  destruct (65 <=? nat_of_ascii c)%nat eqn:Hlo;
    destruct (nat_of_ascii c <=? 90)%nat eqn:Hhi; cbn [andb]; try assumption.
  apply Nat.leb_le in Hhi. rewrite nat_ascii_embedding; lia.
Qed.

Lemma sqlite3Tolower_high (c : ascii) :
  (128 <= nat_of_ascii c)%nat -> sqlite3Tolower c = c.
Proof.
  intros Hc. unfold sqlite3Tolower, inRange.
  change (nat_of_ascii "Z") with 90%nat.
  replace (nat_of_ascii c <=? 90)%nat with false; [now rewrite andb_false_r|].
  symmetry. apply Nat.leb_gt. lia.
Qed.

Lemma likeCharEq_plain_high (c d : ascii) :
  (nat_of_ascii c <= 127)%nat -> (128 <= nat_of_ascii d)%nat -> likeCharEq c d = false.
Proof.
  intros Hc Hd. unfold likeCharEq. apply Ascii.eqb_neq. intros Heq.
  apply sqlite3Tolower_plain in Hc. rewrite Heq, (sqlite3Tolower_high _ Hd) in Hc. lia.
Qed.

(** For an ASCII value, looking where characters start finds what looking
    at every byte finds. *)
Lemma existsb_prefix_charStarts (v s : string) (inChar : bool) :
  asciiText v = true ->
  existsb (prefixNoCase v) (charStartsFrom inChar s) = containsNoCase s v.
Proof.
  intros Hv. revert inChar. induction s as [|d s IH]; intros inChar.
  - simpl. now rewrite orb_false_r.
  - cbn [charStartsFrom containsNoCase]. rewrite existsb_app, IH.
    destruct (inChar && inRange (ascii_of_nat 128) (ascii_of_nat 191) d) eqn:Hcont;
      cbn [existsb]; [|now rewrite orb_false_r].
    apply andb_prop in Hcont as [_ Hd]. unfold inRange in Hd.
    apply andb_prop in Hd as [Hd _]. apply Nat.leb_le in Hd.
    change (nat_of_ascii (ascii_of_nat 128)) with 128%nat in Hd.
    destruct v as [|c v]; [now destruct s|].
    simpl in Hv. apply andb_prop in Hv as [Hc _]. apply andb_prop in Hc as [_ Hc].
    apply Nat.leb_le in Hc.
    cbn [prefixNoCase]. now rewrite (likeCharEq_plain_high _ _ Hc Hd).
Qed.

Lemma existsb_same {A : Type} (f g : A -> bool) (l : list A) :
  (forall x, f x = g x) -> existsb f l = existsb g l.
Proof.
  intros Hfg. induction l as [|x l IH]; [reflexivity|].
  simpl. now rewrite Hfg, IH.
Qed.

(** Between two [%] an ASCII value without wildcards is a containment
    test. *)
Lemma like_contains (v s : string) :
  asciiText v = true -> noWildcard v = true ->
  like ("%" ++ v ++ "%") s = containsNoCase s v.
Proof.
  intros Ha Hv. change ("%" ++ v ++ "%") with (String "%" (v ++ "%")).
  rewrite like_percent.
  rewrite (existsb_same _ (prefixNoCase v)) by (intros x; now apply like_prefix).
  now apply existsb_prefix_charStarts.
Qed.

Lemma likeCharEq_fold (c d : ascii) :
  likeCharEq c d = true <-> sqlite3Tolower c = sqlite3Tolower d.
Proof. unfold likeCharEq. apply Ascii.eqb_eq. Qed.

Lemma prefixNoCase_spec (v s : string) :
  prefixNoCase v s = true <->
  exists w after : string, s = w ++ after /\ foldCase w = foldCase v.
Proof.
  revert s. induction v as [|c v IH]; intros s.
  - split; [|reflexivity]. intros _. now exists "", s.
  - destruct s as [|d s]; simpl.
    + split; [discriminate|].
      intros (w & after & Hs & Hw). destruct w; discriminate.
    + rewrite andb_true_iff, likeCharEq_fold, IH. split.
      * intros (Hc & w & after & -> & Hw).
        exists (String d w), after. simpl. now rewrite Hw, Hc.
      * intros (w & after & Hs & Hw).
        destruct w as [|d' w]; [discriminate|].
        simpl in Hs, Hw. injection Hs as <- ->. injection Hw as Hc Hw.
        split; [now symmetry|]. now exists w, after.
Qed.

Lemma containsNoCase_spec (s v : string) :
  containsNoCase s v = true <->
  exists before w after : string, s = before ++ w ++ after /\ foldCase w = foldCase v.
Proof.
  induction s as [|d s IH].
  - simpl. rewrite orb_false_r, prefixNoCase_spec. split.
    + intros (w & after & Hs & Hw). now exists "", w, after.
    + intros (before & w & after & Hs & Hw).
      destruct before; [|discriminate]. now exists w, after.
  - cbn [containsNoCase]. rewrite orb_true_iff, prefixNoCase_spec, IH. split.
    + intros [(w & after & Hs & Hw)|(before & w & after & Hs & Hw)].
      * now exists "", w, after.
      * exists (String d before), w, after. simpl. now rewrite Hs.
    + intros (before & w & after & Hs & Hw).
      destruct before as [|d' before].
      * left. now exists w, after.
      * right. simpl in Hs. injection Hs as _ ->. now exists before, w, after.
Qed.

Lemma like_matchesSubstring (column v : string) :
  asciiText v = true -> noWildcard v = true ->
  matchesSubstring column v (Some (like ("%" ++ v ++ "%") column)).
Proof.
  intros Ha Hv. exists (like ("%" ++ v ++ "%") column). split; [reflexivity|].
  rewrite (like_contains _ _ Ha Hv). apply containsNoCase_spec.
Qed.

(** C4, as the code has it.  For a value of [url], [ref] or [ua] made of
    ASCII bytes other than NUL, [%] and [_] (quotes included), short enough
    for the engine to accept the pattern, and a column without NUL byte,
    the filter keeps exactly the rows whose column contains the value,
    letter case aside. *)
Theorem like_filters_match_substring
  (r : ViewsRequest) (row : ViewRecord) (t : string) :
  (url r <> "" -> noWildcard (url r) = true -> engineReads (url r) (rec_url row) ->
     matchesSubstring (rec_url row) (url r) (evalFilter (buildUrlFilter r []) row t)) /\
  (ref r <> "" -> noWildcard (ref r) = true -> engineReads (ref r) (rec_ref row) ->
     matchesSubstring (rec_ref row) (ref r) (evalFilter (buildRefFilter r []) row t)) /\
  (ua r <> "" -> noWildcard (ua r) = true -> engineReads (ua r) (rec_useragent row) ->
     matchesSubstring (rec_useragent row) (ua r)
       (evalFilter (buildUseragentFilter r []) row t)).
Proof.
  repeat split; intros Hne Hv (Ha & _ & _); apply nonempty_true in Hne;
    unfold evalFilter, buildUrlFilter, buildRefFilter, buildUseragentFilter;
    rewrite Hne; cbn -[like String.append]; now apply like_matchesSubstring.
Qed.

Lemma like_filters_match_substring_witness :
  matchesSubstring "https://site/blog/post1" "a' OR '1'='1"
    (evalFilter (buildUrlFilter (mkViewsRequest PAGES "" "" "a' OR '1'='1" "" "") [])
       (mkViewRecord "https://site/blog/post1" "" "" "") "2019-04-03 12:00:00").
Proof.
  destruct (like_filters_match_substring
              (mkViewsRequest PAGES "" "" "a' OR '1'='1" "" "")
              (mkViewRecord "https://site/blog/post1" "" "" "")
              "2019-04-03 12:00:00") as [Hurl _].
  apply Hurl; [discriminate | reflexivity | repeat split].
Defined.

(** C4, as stated, fails: the value ["%"] keeps a row whose url has no
    ["%"] in it, and so does ["_"]; and ["BLOG"] keeps a url that has only
    ["blog"]. *)
Lemma like_filter_wildcards_match_everything :
  evalFilter (buildUrlFilter (mkViewsRequest PAGES "" "" "%" "" "") [])
    (mkViewRecord "/about" "" "" "") "2019-04-03 12:00:00" = Some true /\
  strings_Contains "/about" "%" = false /\
  evalFilter (buildUseragentFilter (mkViewsRequest PAGES "" "" "" "" "_") [])
    (mkViewRecord "/about" "" "Firefox 66.0" "") "2019-04-03 12:00:00" = Some true /\
  strings_Contains "Firefox 66.0" "_" = false /\
  evalFilter (buildUrlFilter (mkViewsRequest PAGES "" "" "BLOG" "" "") [])
    (mkViewRecord "https://site/blog/post1" "" "" "") "2019-04-03 12:00:00" = Some true /\
  strings_Contains "https://site/blog/post1" "BLOG" = false.
Proof. repeat split. Qed.

(** * Further properties of the code *)

(** ** Tracking *)

Section TrackingMore.

Variable URL : Type.
Variable url_Parse : string -> option URL.
Variable Hostname : URL -> string.
Variable Browser : string -> string * string.

Ltac run_trackView :=
  unfold trackView, cleanedRef, summarizedUA, parserCalls, insertOf,
    fmt_Println, bind, emit, call_Hostname, sqlDB_Exec, ret, panic, append in *.

(** With a non-empty url, a referrer that is empty or parses, and a working
    engine, [trackView] appends exactly one row: the url as given, the
    referrer's hostname, the browser summary, and the engine's time.  The
    parsers are called only for the non-empty fields, and the values reach
    the engine as the three named parameters of the one fixed insert. *)
Theorem trackView_stores_one_row (urlString ref ua host : string) (w : World) :
  urlString <> "" ->
  cleanedRef url_Parse Hostname ref = Some host ->
  fault w = None ->
  trackView URL url_Parse Hostname Browser urlString ref ua w =
    Returned (tt,
      mkWorld (table w ++ [mkViewRecord urlString host (summarizedUA Browser ua) (clock w)])%list
              None (clock w)
              (trace w ++ parserCalls ref ua ++
                 [insertOf urlString host (summarizedUA Browser ua)])%list).
Proof.
  intros Hu Hr Hf. destruct urlString as [|c us]; [now contradiction Hu|].
  run_trackView. cbn [String.length Nat.eqb].
  destruct (String.eqb_spec ref "") as [->|Hne]; destruct (String.eqb_spec ua "") as [->|Hna];
    cbn [negb] in *; try destruct (url_Parse ref); try destruct (Browser ua);
    cbn in *; try discriminate Hr; injection Hr as <-;
    rewrite Hf; cbn; rewrite <- ?app_assoc; reflexivity.
Qed.

(** When the engine refuses the insert, [trackView] still returns: no row
    is stored, and the error ends up in one printed line. *)
Theorem trackView_insert_failure (urlString ref ua host err : string) (w : World) :
  urlString <> "" ->
  cleanedRef url_Parse Hostname ref = Some host ->
  fault w = Some err ->
  trackView URL url_Parse Hostname Browser urlString ref ua w =
    Returned (tt,
      mkWorld (table w) (Some err) (clock w)
              (trace w ++ parserCalls ref ua ++
                 [insertOf urlString host (summarizedUA Browser ua);
                  EvPrintln ("Inserting into DB failed: " ++ err)])%list).
Proof.
  intros Hu Hr Hf. destruct urlString as [|c us]; [now contradiction Hu|].
  run_trackView. cbn [String.length Nat.eqb].
  destruct (String.eqb_spec ref "") as [->|Hne]; destruct (String.eqb_spec ua "") as [->|Hna];
    cbn [negb] in *; try destruct (url_Parse ref); try destruct (Browser ua);
    cbn in *; try discriminate Hr; injection Hr as <-;
    rewrite Hf; cbn; rewrite <- ?app_assoc; reflexivity.
Qed.


(** [trackView] panics in one situation only: a non-empty url with a
    non-empty referrer that [url.Parse] rejects. *)
Theorem trackView_panics_only_on_rejected_referrer
  (urlString ref ua reason : string) (w : World) :
  trackView URL url_Parse Hostname Browser urlString ref ua w = Panicked reason ->
  urlString <> "" /\ ref <> "" /\ url_Parse ref = None.
Proof.
  intros H. destruct urlString as [|c us]; [discriminate H|].
  run_trackView. cbn [String.length Nat.eqb] in H.
  destruct (String.eqb_spec ref "") as [->|Hr]; destruct (String.eqb_spec ua "") as [->|Hna];
    cbn [negb] in H; try destruct (url_Parse ref) eqn:Hp; try destruct (Browser ua);
    cbn in H; destruct (fault w); cbn in H; try discriminate H;
    repeat split; auto; discriminate.
Qed.

End TrackingMore.

Lemma trackView_stores_one_row_witness :
  track "/page" "https://example.com/foo" "Mozilla" emptyWorld =
    Returned (tt,
      mkWorld [mkViewRecord "/page" "https://example.com/foo" "Mozilla " "2019-04-03 12:00:00"]
              None "2019-04-03 12:00:00"
              [EvUrlParse "https://example.com/foo"; EvUserAgent "Mozilla";
               insertOf "/page" "https://example.com/foo" "Mozilla "]).
Proof.
  apply (trackView_stores_one_row string schemeOnlyParse (fun host => host)
           (fun ua => (ua, "")) "/page" "https://example.com/foo" "Mozilla"
           "https://example.com/foo" emptyWorld).
  - discriminate.
  - reflexivity.
  - reflexivity.
Defined.

Lemma trackView_insert_failure_witness :
  track "/page" "" "" (mkWorld [] (Some "database is locked") "2019-04-03 12:00:00" []) =
    Returned (tt,
      mkWorld [] (Some "database is locked") "2019-04-03 12:00:00"
              [insertOf "/page" "" "";
               EvPrintln "Inserting into DB failed: database is locked"]).
Proof.
  apply (trackView_insert_failure string schemeOnlyParse (fun host => host)
           (fun ua => (ua, "")) "/page" "" "" "" "database is locked"
           (mkWorld [] (Some "database is locked") "2019-04-03 12:00:00" [])).
  - discriminate.
  - reflexivity.
  - reflexivity.
Defined.


Lemma trackView_panics_only_on_rejected_referrer_witness :
  "/page" <> "" /\ ":foo" <> "" /\ schemeOnlyParse ":foo" = None.
Proof.
  apply (trackView_panics_only_on_rejected_referrer string schemeOnlyParse
           (fun host => host) (fun ua => (ua, "")) "/page" ":foo" ""
           "invalid memory address or nil pointer dereference" emptyWorld).
  reflexivity.
Defined.

(** ** Running a request *)

Lemma requestLoop_all_scanned (rows acc : list RequestResultRow) :
  requestLoop (scanned rows) acc =
    mkRequestResult (Some (acc ++ rows)%list) None (Some (mkRows [] true)).
Proof.
  revert acc. induction rows as [|[first second] rows IH]; intros acc; simpl.
  - now rewrite app_nil_r.
  - rewrite IH. unfold append. now rewrite <- app_assoc.
Qed.

Lemma requestLoop_iteration_error
  (got : list RequestResultRow) (err : string) (rest : list ScanResult)
  (acc : list RequestResultRow) :
  requestLoop (scanned got ++ IterErr err :: rest) acc =
    mkRequestResult (Some (acc ++ got)%list) None (Some (mkRows rest true)).
Proof.
  revert acc. induction got as [|[first second] got IH]; intros acc; simpl.
  - now rewrite app_nil_r.
  - rewrite IH. unfold append. now rewrite <- app_assoc.
Qed.

Lemma requestLoop_nil_error (pend : list ScanResult) (acc : list RequestResultRow) :
  e (requestLoop pend acc) = None ->
  exists rows : list RequestResultRow,
    pend = scanned rows \/
    exists (err : string) (rest : list ScanResult),
      pend = (scanned rows ++ IterErr err :: rest)%list.
Proof.
  revert acc. induction pend as [|[first second|err|err] pend IH]; intros acc H.
  - exists []. now left.
  - simpl in H. destruct (IH _ H) as [rows [->|(err & rest & ->)]].
    + exists (mkRow first second :: rows). now left.
    + exists (mkRow first second :: rows). right. now exists err, rest.
  - discriminate H.
  - exists []. right. now exists err, pend.
Qed.

Lemma requestLoop_leaves_closed (pend : list ScanResult) (acc : list RequestResultRow) :
  resultRows (requestLoop pend acc) <> None /\
  exists c : Rows, cursor (requestLoop pend acc) = Some c /\ closed c = true.
Proof.
  revert acc. induction pend as [|[first second|err|err] pend IH]; intros acc; simpl.
  - split; [discriminate|]. now eexists.
  - apply IH.
  - split; [discriminate|]. now eexists.
  - split; [discriminate|]. now eexists.
Qed.

(** When the cursor hands over every row without failing and every scan
    succeeds, [request] returns all rows of the cursor, in the cursor's
    order, with no error, and the cursor is exhausted and released. *)
Theorem request_returns_all_rows
  (Query : QueryFn) (r : ViewsRequest) (rows : list RequestResultRow) :
  Query (statementOf r) (snd (buildFilter r)) = inr (scanned rows) ->
  request Query r = mkRequestResult (Some rows) None (Some (mkRows [] true)).
Proof.
  intros HQ. rewrite request_runs_query, HQ. apply requestLoop_all_scanned.
Qed.

Lemma request_returns_all_rows_witness :
  request (fun _ _ => inr [ScanOk "/a" 2%Z; ScanOk "/b" 1%Z]) pagesRequest =
    mkRequestResult (Some [mkRow "/a" 2%Z; mkRow "/b" 1%Z]) None (Some (mkRows [] true)).
Proof.
  apply (request_returns_all_rows (fun _ _ => inr [ScanOk "/a" 2%Z; ScanOk "/b" 1%Z])
           pagesRequest [mkRow "/a" 2%Z; mkRow "/b" 1%Z]).
  reflexivity.
Defined.

(** When fetching a row fails part way, [request] hides it: the rows
    scanned until then come back with a [nil] error, as if they were all
    there is. *)
Theorem request_iteration_error_is_silent
  (Query : QueryFn) (r : ViewsRequest)
  (got : list RequestResultRow) (err : string) (rest : list ScanResult) :
  Query (statementOf r) (snd (buildFilter r)) = inr (scanned got ++ IterErr err :: rest)%list ->
  request Query r = mkRequestResult (Some got) None (Some (mkRows rest true)).
Proof.
  intros HQ. rewrite request_runs_query, HQ.
  apply requestLoop_iteration_error.
Qed.

Lemma request_iteration_error_is_silent_witness :
  request (fun _ _ => inr [ScanOk "/a" 2%Z; IterErr "database is locked"; ScanOk "/b" 1%Z])
    pagesRequest =
    mkRequestResult (Some [mkRow "/a" 2%Z]) None (Some (mkRows [ScanOk "/b" 1%Z] true)).
Proof.
  apply (request_iteration_error_is_silent
           (fun _ _ => inr [ScanOk "/a" 2%Z; IterErr "database is locked"; ScanOk "/b" 1%Z])
           pagesRequest [mkRow "/a" 2%Z] "database is locked").
  reflexivity.
Defined.

(** What a [nil] error from [request] does tell: the query opened a cursor,
    no scan failed, and the result holds the rows in front of the cursor's
    end or of the first row that could not be fetched. *)
Theorem request_nil_error_means (Query : QueryFn) (r : ViewsRequest) :
  e (request Query r) = None ->
  exists rows : list RequestResultRow,
    resultRows (request Query r) = Some rows /\
    (Query (statementOf r) (snd (buildFilter r)) = inr (scanned rows) \/
     exists (err : string) (rest : list ScanResult),
       Query (statementOf r) (snd (buildFilter r)) =
         inr (scanned rows ++ IterErr err :: rest)%list).
Proof.
  rewrite request_runs_query.
  destruct (Query (statementOf r) (snd (buildFilter r))) as [err|pend]; intros H.
  - discriminate H.
  - destruct (requestLoop_nil_error _ _ H) as [rows [->|(err & rest & ->)]];
      exists rows.
    + split; [now rewrite requestLoop_all_scanned | now left].
    + split; [now rewrite requestLoop_iteration_error|].
      right. now exists err, rest.
Qed.

Lemma request_nil_error_means_witness :
  exists rows : list RequestResultRow,
    resultRows (request noRows pagesRequest) = Some rows /\
    (noRows (statementOf pagesRequest) (snd (buildFilter pagesRequest)) = inr (scanned rows) \/
     exists (err : string) (rest : list ScanResult),
       noRows (statementOf pagesRequest) (snd (buildFilter pagesRequest)) =
         inr (scanned rows ++ IterErr err :: rest)%list).
Proof.
  apply (request_nil_error_means noRows pagesRequest). reflexivity.
Defined.

(** The row result is the [nil] slice exactly when the query itself fails,
    and then the query's error is the one returned. *)
Theorem request_nil_rows_iff_query_fails (Query : QueryFn) (r : ViewsRequest) :
  resultRows (request Query r) = None <->
  exists err : string,
    Query (statementOf r) (snd (buildFilter r)) = inl err /\
    e (request Query r) = Some err.
Proof.
  rewrite request_runs_query.
  destruct (Query (statementOf r) (snd (buildFilter r))) as [err|pend].
  - split; [|reflexivity]. intros _. now exists err.
  - split.
    + intros H. now destruct (requestLoop_leaves_closed pend []) as [Hne _].
    + intros (err & H & _). discriminate H.
Qed.

(** Every cursor that [request] opens is released by the time it returns,
    whether the rows ran out or a scan failed. *)
Theorem request_releases_cursor
  (Query : QueryFn) (r : ViewsRequest) (pend : list ScanResult) :
  Query (statementOf r) (snd (buildFilter r)) = inr pend ->
  exists c : Rows, cursor (request Query r) = Some c /\ closed c = true.
Proof.
  intros HQ. rewrite request_runs_query, HQ.
  apply requestLoop_leaves_closed.
Qed.

Lemma request_releases_cursor_witness :
  exists c : Rows,
    cursor (request scanFailsOnSecondRow pagesRequest) = Some c /\ closed c = true.
Proof.
  apply (request_releases_cursor scanFailsOnSecondRow pagesRequest
           [ScanOk "/a" 2%Z; ScanErr "sql: Scan error on column index 1"; ScanOk "/b" 1%Z]).
  reflexivity.
Defined.

(** ** The filter and its parameters *)

Lemma noFilters_anyFilter (r : ViewsRequest) : noFilters r <-> anyFilter r = false.
Proof.
  unfold noFilters, anyFilter.
  rewrite <- !nonempty_false, !orb_false_iff. tauto.
Qed.

(** The filter text is empty exactly when no filter field is set, and so is
    the parameter list. *)
Theorem buildFilter_empty_iff_no_filters (r : ViewsRequest) :
  (fst (buildFilter r) = "" <-> noFilters r) /\
  (snd (buildFilter r) = [] <-> noFilters r).
Proof.
  rewrite noFilters_anyFilter. unfold anyFilter. unfold_builders.
  split_fields r; cbn; split; split; intro H; try reflexivity; discriminate H.
Qed.

(** Every field that is set can be looked up in the parameter list under
    its own name, the date bounds as given and the three substring values
    between two [%]; a field that is not set is not bound. *)
Theorem buildFilter_binds_set_fields (r : ViewsRequest) :
  lookupArg "from" (snd (buildFilter r)) =
    (if nonempty (from r) then Some (from r) else None) /\
  lookupArg "to" (snd (buildFilter r)) =
    (if nonempty (to r) then Some (to r) else None) /\
  lookupArg "url" (snd (buildFilter r)) =
    (if nonempty (url r) then Some ("%" ++ url r ++ "%") else None) /\
  lookupArg "ref" (snd (buildFilter r)) =
    (if nonempty (ref r) then Some ("%" ++ ref r ++ "%") else None) /\
  lookupArg "ua" (snd (buildFilter r)) =
    (if nonempty (ua r) then Some ("%" ++ ua r ++ "%") else None).
Proof.
  unfold_builders. split_fields r; repeat split.
Qed.

(** The placeholders in the filter text and the parameters agree: each of
    the five names occurs as a placeholder exactly when it is bound, and no
    name is bound twice. *)
Theorem buildFilter_placeholders_are_bound (r : ViewsRequest) (name : string) :
  In name ["from"; "to"; "url"; "ref"; "ua"] ->
  strings_Contains (fst (buildFilter r)) (":" ++ name) = isBound name (snd (buildFilter r)) /\
  NoDup (map Name (snd (buildFilter r))).
Proof.
  intros Hn. split.
  - simpl in Hn. unfold_builders. unfold isBound.
    destruct Hn as [<-|[<-|[<-|[<-|[<-|[]]]]]]; split_fields r; reflexivity.
  - unfold_builders. split_fields r; cbn;
      repeat (constructor; [cbn; intuition discriminate|]); constructor.
Qed.

Lemma buildFilter_placeholders_are_bound_witness :
  strings_Contains
    (fst (buildFilter (mkViewsRequest PAGES "2019-04-01" "" "blog" "" ""))) (":" ++ "url") =
    isBound "url" (snd (buildFilter (mkViewsRequest PAGES "2019-04-01" "" "blog" "" ""))) /\
  NoDup (map Name (snd (buildFilter (mkViewsRequest PAGES "2019-04-01" "" "blog" "" "")))).
Proof.
  apply (buildFilter_placeholders_are_bound
           (mkViewsRequest PAGES "2019-04-01" "" "blog" "" "") "url").
  simpl. auto.
Defined.

(** Read on a row with the request's own parameter list, the active clauses
    together hold exactly when the row passes every field that is set: the
    local time within the bounds given, and each of url, referrer and user
    agent matching its pattern. *)
Theorem activeClauses_select_passing_rows
  (r : ViewsRequest) (row : ViewRecord) (t : string) :
  evalAll (activeClauses r) (snd (buildFilter r)) row t = Some (rowPasses r row t).
Proof.
  unfold rowPasses. unfold_builders.
  split_fields r; cbn -[like String.leb String.append];
    repeat match goal with
           | |- context [String.leb ?a ?b] => destruct (String.leb a b)
           | |- context [like ?a ?b] => destruct (like a b)
           end; reflexivity.
Qed.

(** A value that occurs in a column as it stands always matches the
    pattern built from it, whatever bytes it has. *)
Lemma prefix_split (v s : string) :
  String.prefix v s = true -> exists rest : string, s = v ++ rest.
Proof.
  revert s. induction v as [|c v IH]; intros s H.
  - now exists s.
  - destruct s as [|d s]; [discriminate H|].
    simpl in H. destruct (ascii_dec c d) as [<-|]; [|discriminate H].
    destruct (IH _ H) as [rest ->]. now exists rest.
Qed.

Lemma contains_split (s v : string) :
  strings_Contains s v = true -> exists before after : string, s = before ++ v ++ after.
Proof.
  induction s as [|d s IH]; cbn [strings_Contains]; intros H;
    apply orb_true_iff in H as [H|H].
  - destruct (prefix_split _ _ H) as [rest ->]. now exists "", rest.
  - discriminate H.
  - destruct (prefix_split _ _ H) as [rest ->]. now exists "", rest.
  - destruct (IH H) as (before & after & ->). now exists (String d before), after.
Qed.

Lemma likeCharEq_refl (c : ascii) : likeCharEq c c = true.
Proof. apply likeCharEq_fold. reflexivity. Qed.

Lemma like_own_prefix (v rest : string) : like (v ++ "%") (v ++ rest) = true.
Proof.
  induction v as [|c v IH]; [apply like_trailing_percent|].
  change (String c v ++ "%") with (String c (v ++ "%")).
  change (String c v ++ rest) with (String c (v ++ rest)).
  destruct (Ascii.eqb_spec c "%") as [->|Hp].
  - rewrite like_percent. apply existsb_exists.
    exists (v ++ rest). split; [|exact IH].
    right. apply charStarts_whole.
  - destruct (Ascii.eqb_spec c "_") as [->|Hu].
    + exact IH.
    + apply Ascii.eqb_neq in Hp, Hu.
      now rewrite (like_literal _ _ _ Hp Hu), likeCharEq_refl, IH.
Qed.

Lemma like_literal_occurrence (before v after : string) :
  asciiText v = true -> v <> "" ->
  like ("%" ++ v ++ "%") (before ++ v ++ after) = true.
Proof.
  intros Ha Hne. change ("%" ++ v ++ "%") with (String "%" (v ++ "%")).
  rewrite like_percent. apply existsb_exists.
  exists (v ++ after). split; [|apply like_own_prefix].
  apply charStartsFrom_plain. now apply asciiText_startsPlain.
Qed.

(** A row whose column contains the filter value as it stands is never
    filtered out, even when the value has [%] or [_] in it, for a value of
    ASCII bytes other than NUL that is short enough for the engine to
    accept the pattern, and a column without NUL byte. *)
Theorem like_filters_keep_literal_matches
  (r : ViewsRequest) (row : ViewRecord) (t : string) :
  (url r <> "" -> engineReads (url r) (rec_url row) ->
   strings_Contains (rec_url row) (url r) = true ->
     evalFilter (buildUrlFilter r []) row t = Some true) /\
  (ref r <> "" -> engineReads (ref r) (rec_ref row) ->
   strings_Contains (rec_ref row) (ref r) = true ->
     evalFilter (buildRefFilter r []) row t = Some true) /\
  (ua r <> "" -> engineReads (ua r) (rec_useragent row) ->
   strings_Contains (rec_useragent row) (ua r) = true ->
     evalFilter (buildUseragentFilter r []) row t = Some true).
Proof.
  repeat split; intros Hne (Ha & _ & _) Hc; pose proof Hne as Hset;
    apply nonempty_true in Hset;
    unfold evalFilter, buildUrlFilter, buildRefFilter, buildUseragentFilter;
    rewrite Hset; cbn -[like String.append];
    destruct (contains_split _ _ Hc) as (before & after & ->);
    now rewrite like_literal_occurrence.
Qed.

Lemma like_filters_keep_literal_matches_witness :
  evalFilter (buildUrlFilter (mkViewsRequest PAGES "" "" "100%_off" "" "") [])
    (mkViewRecord "/sale/100%_off/today" "" "" "") "2019-04-03 12:00:00" = Some true.
Proof.
  destruct (like_filters_keep_literal_matches
              (mkViewsRequest PAGES "" "" "100%_off" "" "")
              (mkViewRecord "/sale/100%_off/today" "" "" "")
              "2019-04-03 12:00:00") as [Hurl _].
  apply Hurl; [discriminate | repeat split | reflexivity].
Defined.

(** ** The statements of all views *)

(** Every recognized view gets a statement of one shape: it selects the
    view's key as [first] and the row count as [second] from [views], puts
    the filter between them and the grouping, and groups by the key. *)
Theorem buildStatement_two_columns (r : ViewsRequest) (filters : string) :
  recognized (view r) ->
  buildStatement r filters =
    "SELECT " ++ selectKey (view r) ++ " as first, count(*) as second from views" ++
    whereClause filters ++ "group by " ++ groupKey (view r) ++ ";".
Proof.
  intros Hv. apply view_cases in Hv. unfold buildStatement.
  destruct Hv as [Hc|[Hc|[Hc|[Hc|[Hc|[Hc|Hc]]]]]]; rewrite Hc; reflexivity.
Qed.

Lemma buildStatement_two_columns_witness :
  buildStatement (mkViewsRequest REFERRERS "" "" "blog" "" "") "url like :url" =
    "SELECT ref as first, count(*) as second from views where url like :url group by ref;".
Proof.
  apply (buildStatement_two_columns (mkViewsRequest REFERRERS "" "" "blog" "" "")
           "url like :url").
  unfold recognized, REFERRERS, DAYS, WEEKS; simpl; lia.
Defined.

Lemma statement_where_anyFilter (r : ViewsRequest) :
  recognized (view r) ->
  strings_Contains (statementOf r) " where " = anyFilter r.
Proof.
  intros Hv. apply view_cases in Hv.
  unfold anyFilter. unfold_builders. unfold buildStatement.
  destruct Hv as [Hc|[Hc|[Hc|[Hc|[Hc|[Hc|Hc]]]]]]; rewrite Hc;
    split_fields r; reflexivity.
Qed.

(** For a recognized view the statement has a [where] clause exactly when
    some filter field is set. *)
Theorem statement_has_where_iff_filtered (r : ViewsRequest) :
  recognized (view r) ->
  (strings_Contains (statementOf r) " where " = true <-> ~ noFilters r).
Proof.
  intros Hv. rewrite (statement_where_anyFilter _ Hv), noFilters_anyFilter.
  destruct (anyFilter r); split; intro H; try reflexivity; try discriminate; auto.
Qed.

Lemma statement_has_where_iff_filtered_witness :
  strings_Contains (statementOf (mkViewsRequest DAYS "2019-04-01" "" "" "" "")) " where " = true <->
  ~ noFilters (mkViewsRequest DAYS "2019-04-01" "" "" "" "").
Proof.
  apply (statement_has_where_iff_filtered (mkViewsRequest DAYS "2019-04-01" "" "" "" "")).
  unfold recognized, REFERRERS, DAYS, WEEKS; simpl; lia.
Defined.

(** Two different recognized views never get the same statement. *)
Theorem buildStatement_distinguishes_views (r1 r2 : ViewsRequest) (filters : string) :
  recognized (view r1) -> recognized (view r2) ->
  buildStatement r1 filters = buildStatement r2 filters ->
  view r1 = view r2.
Proof.
  intros H1 H2 H. apply view_cases in H1, H2. unfold buildStatement in H.
  destruct H1 as [C1|[C1|[C1|[C1|[C1|[C1|C1]]]]]]; rewrite C1 in *;
    destruct H2 as [C2|[C2|[C2|[C2|[C2|[C2|C2]]]]]]; rewrite C2 in *;
    try reflexivity; cbn in H; discriminate H.
Qed.

Lemma buildStatement_distinguishes_views_witness :
  view (mkViewsRequest WEEKS "" "" "" "" "") = view (mkViewsRequest WEEKS "a" "b" "c" "d" "e").
Proof.
  apply (buildStatement_distinguishes_views
           (mkViewsRequest WEEKS "" "" "" "" "") (mkViewsRequest WEEKS "a" "b" "c" "d" "e")
           "url like :url").
  - unfold recognized, REFERRERS, DAYS, WEEKS; simpl; lia.
  - unfold recognized, REFERRERS, DAYS, WEEKS; simpl; lia.
  - reflexivity.
Defined.

(** ** The answers to the column views *)



(** Two views of [/a] and one of [/b], no filter: PAGES is answered with
    [/a] twice and [/b] once. *)
Lemma pages_of_threeViews :
  runSelect aprilThird (statementOf pagesRequest) (snd (buildFilter pagesRequest))
    threeViews = Some [mkRow "/a" 2%Z; mkRow "/b" 1%Z].
Proof. reflexivity. Qed.
